(* Shallow embedding of src/train_GAN.py (AdversarialOmniPose): the adversarial
   losses, the partial state-dict restore done on resume, the learning-rate
   schedule replay, the best-model tracking of the epoch loop of [main] and the
   per-batch loop of [train_GAN]. *)

From Stdlib Require Import Bool List String ZArith QArith Reals Lra Lia Sorted.
Import ListNotations.

(* ------------------------------------------------------------------------- *)
(** * Adversarial losses (lines 241-262)                                      *)
(* ------------------------------------------------------------------------- *)

Module Losses.
Local Open Scope R_scope.

(** A tensor is flattened to the list of its elements; [.mean()] averages all
    of them.  (On an empty tensor torch gives nan, which R lacks: the
    bounds proved below assume non-empty tensors.) *)
Fixpoint sum (l : list R) : R :=
  match l with
  | [] => 0
  | x :: l' => x + sum l'
  end.

Definition mean (l : list R) : R := sum l / INR (List.length l).

(** The default stabilizer [eps=1e-5] of [_get_loss_disc]. *)
Definition eps : R := 1 / 100000.

(** [_get_loss_disc(disc_output, real, eps=1e-5)]:
    [-torch.log(eps + disc_output).mean()] when [real],
    [-torch.log(eps + 1 - disc_output).mean()] otherwise. *)
Definition _get_loss_disc (disc_output : list R) (real : bool) : R :=
  if real then - mean (map (fun x => ln (eps + x)) disc_output)
  else - mean (map (fun x => ln (eps + 1 - x)) disc_output).

(** [get_loss_disc(disc_fake, disc_real)]: the fake output comes first. *)
Definition get_loss_disc (disc_fake disc_real : list R) : R :=
  _get_loss_disc disc_fake false + _get_loss_disc disc_real true.

(** Elementwise [outputs - target] on tensors of equal shape. *)
Fixpoint map2 (f : R -> R -> R) (a b : list R) : list R :=
  match a, b with
  | x :: a', y :: b' => f x y :: map2 f a' b'
  | _, _ => []
  end.

(** [get_loss_gen(outputs, disc_fake, target)]. *)
Definition get_loss_gen (outputs disc_fake target : list R) : R :=
  let loss_gen := mean (map2 (fun o t => (o - t) ^ 2) outputs target) in
  let loss_disc := _get_loss_disc disc_fake true in
  loss_gen + loss_disc.

End Losses.

(* ------------------------------------------------------------------------- *)
(** * Python exceptions as an error monad                                     *)
(* ------------------------------------------------------------------------- *)

Module Py.

Inductive PyExc : Type :=
| RuntimeError (msg : string)       (* raised by [load_state_dict] *)
| NameError (name : string)         (* reference to an unbound global *)
| UnboundLocalError (name : string) (* local read before assignment *)
| IndexError (msg : string)         (* indexing out of range *)
| ZeroDivisionError.

Inductive Res (A : Type) : Type :=
| Ok (a : A)
| Err (e : PyExc).
Arguments Ok {A} a.
Arguments Err {A} e.

Definition bind {A B : Type} (m : Res A) (k : A -> Res B) : Res B :=
  match m with
  | Ok a => k a
  | Err e => Err e
  end.

Notation "x <- m ;; k" := (bind m (fun x => k))
  (at level 61, m at next level, right associativity).

End Py.

(* ------------------------------------------------------------------------- *)
(** * State dicts and the partial restore on resume (lines 145-163)           *)
(* ------------------------------------------------------------------------- *)

Module StateLoad.
Import Py.

(** A tensor: its [size()] and its (flattened) values. *)
Record Tensor : Type := mkTensor { size : list nat; values : list Z }.

(** [module.state_dict()] and checkpoint dicts: an ordered dict from
    parameter names to tensors. *)
Definition StateDict : Type := list (string * Tensor).

Fixpoint sd_get (k : string) (d : StateDict) : option Tensor :=
  match d with
  | [] => None
  | (k', v) :: d' => if String.eqb k k' then Some v else sd_get k d'
  end.

Definition size_eqb (a b : list nat) : bool :=
  if list_eq_dec Nat.eq_dec a b then true else false.

(** The loop of lines 147-151 (and 157-161): for every key [k] of the live
    dict, keep [saved[k]] when [k in saved and live[k].size() ==
    saved[k].size()], otherwise print "Skipped loading parameter k".
    Returns the new dict and the skipped keys, in iteration order. *)
Fixpoint merge_compatible (live saved : StateDict) : StateDict * list string :=
  match live with
  | [] => ([], [])
  | (k, t) :: rest =>
      let '(nd, skipped) := merge_compatible rest saved in
      match sd_get k saved with
      | Some s =>
          if size_eqb (size t) (size s) then ((k, s) :: nd, skipped)
          else (nd, k :: skipped)
      | None => (nd, k :: skipped)
      end
  end.

(** [input_param[0]] on a 1-dim tensor. *)
Definition index0 (s : Tensor) : Res Tensor :=
  match size s, values s with
  | [S _], v :: _ => Ok (mkTensor [] [v])
  | _, _ => Err (IndexError "index 0 is out of bounds for dimension 0")
  end.

(** The backward-compatibility branch of torch's [_load_from_state_dict]:
    a 0-dim parameter given a 1-dim tensor takes [input_param[0]]. *)
Definition compat_input (param input_param : Tensor) : Res Tensor :=
  match size param, size input_param with
  | [], [_] => index0 input_param
  | _, _ => Ok input_param
  end.

(** The loop of torch's [_load_from_state_dict] over the module's
    parameters: a parameter whose name is in [d] is overwritten by [d]'s
    tensor when the sizes agree; otherwise the key is recorded as a size
    mismatch and the parameter kept.  Missing keys keep their value and
    unexpected keys of [d] are ignored. *)
Fixpoint load_params (module d : StateDict) : Res (StateDict * list string) :=
  match module with
  | [] => Ok ([], [])
  | (k, t) :: rest =>
      match sd_get k d with
      | Some s0 =>
          s <- compat_input t s0 ;;
          r <- load_params rest d ;;
          if size_eqb (size t) (size s) then Ok ((k, s) :: fst r, snd r)
          else Ok ((k, t) :: fst r, k :: snd r)
      | None => r <- load_params rest d ;; Ok ((k, t) :: fst r, snd r)
      end
  end.

(** [module.load_state_dict(d, strict=False)]: the recorded size mismatches
    raise a [RuntimeError] at the end, even when [strict=False]. *)
Definition load_state_dict (module d : StateDict) : Res StateDict :=
  r <- load_params module d ;;
  match snd r with
  | [] => Ok (fst r)
  | k :: _ => Err (RuntimeError ("size mismatch for " ++ k))
  end.

(** Lines 145-153: the partial restore of [model] from
    [checkpoint['state_dict']]. Returns the new module state and the
    skipped keys. *)
Definition load_partial (model saved : StateDict)
  : Res (StateDict * list string) :=
  let '(new_model_state_dict, skipped) := merge_compatible model saved in
  model' <- load_state_dict model new_model_state_dict ;;
  Ok (model', skipped).

(** Lines 145-163: the resume of both modules.  As in the source, the merged
    discriminator dict of lines 155-161 is passed to
    [model.load_state_dict] (line 163).  Returns the generator state, the
    discriminator state and all skipped keys. *)
Definition resume_modules (model discriminator : StateDict)
    (ckpt_state_dict ckpt_discriminator_state_dict : StateDict)
  : Res (StateDict * StateDict * list string) :=
  r1 <- load_partial model ckpt_state_dict ;;
  let '(model1, skipped1) := r1 in
  let '(new_discriminator_dict, skipped2) :=
    merge_compatible discriminator ckpt_discriminator_state_dict in
  model2 <- load_state_dict model1 new_discriminator_dict ;;
  Ok (model2, discriminator, skipped1 ++ skipped2).

(** Whether the live tensor [t] can take the saved entry [o]. *)
Definition compatible (t : Tensor) (o : option Tensor) : bool :=
  match o with
  | Some s => size_eqb (size t) (size s)
  | None => false
  end.

(** The value a parameter should have after the restore. *)
Definition restored (t : Tensor) (o : option Tensor) : Tensor :=
  match o with
  | Some s => if size_eqb (size t) (size s) then s else t
  | None => t
  end.

End StateLoad.

(* ------------------------------------------------------------------------- *)
(** * Learning-rate schedule (lines 131-186)                                  *)
(* ------------------------------------------------------------------------- *)

Module Schedule.
Local Open Scope Q_scope.

(** Python's [range(a, b)] on integers. *)
Definition py_range (a b : Z) : list Z :=
  map (fun n => (a + Z.of_nat n)%Z) (seq 0 (Z.to_nat (b - a))).

(** The single parameter group of the generator optimizer built by
    [get_optimizer]: its current [lr] and the [initial_lr] entry that a
    scheduler adds; both are part of [optimizer.state_dict()] and are restored
    by [optimizer.load_state_dict] (line 169). *)
Record ParamGroup : Type := mkGroup { lr : Q; initial_lr : option Q }.

(** [torch.optim.lr_scheduler.MultiStepLR]: its step counter [last_epoch],
    its milestones (a multiset) and its decay factor. *)
Record Scheduler : Type :=
  mkSched { last_epoch : Z; milestones : list Z; gamma : Q }.

Fixpoint qpow (q : Q) (n : nat) : Q :=
  match n with
  | O => 1
  | S n' => q * qpow q n'
  end.

(** [MultiStepLR.get_lr] (PyTorch >= 1.4, the form used by [step()] without
    argument): the group's current [lr], multiplied by
    [gamma ** milestones[last_epoch]] when [last_epoch] is a milestone. *)
Definition get_lr (g : ParamGroup) (s : Scheduler) : Q :=
  match count_occ Z.eq_dec (milestones s) (last_epoch s) with
  | O => lr g
  | n => lr g * qpow (gamma s) n
  end.

(** [lr_scheduler.step()]: [last_epoch += 1], then the group's [lr] is set to
    [get_lr()]. *)
Definition sched_step (st : ParamGroup * Scheduler) : ParamGroup * Scheduler :=
  let '(g, s) := st in
  let s' := mkSched (last_epoch s + 1) (milestones s) (gamma s) in
  (mkGroup (get_lr g s') (initial_lr g), s').

(** [MultiStepLR(optimizer, milestones, gamma, last_epoch=-1)]:
    [group.setdefault('initial_lr', group['lr'])], then the initial
    [step()] that brings [last_epoch] to 0. *)
Definition MultiStepLR (g : ParamGroup) (ms : list Z) (gm : Q)
  : ParamGroup * Scheduler :=
  let g1 := mkGroup (lr g) (Some (match initial_lr g with
                                  | Some l => l
                                  | None => lr g
                                  end)) in
  sched_step (g1, mkSched (-1) ms gm).

(** Number of iterations of [for i in range(last_epoch)] (line 178). *)
Definition replay_steps (last_epoch : Z) : nat := Z.to_nat last_epoch.

(** The epoch loop of line 185 as far as the schedule goes: each epoch first
    calls [lr_scheduler.step()] (line 186) and then trains with the group's
    [lr]; the group is what a checkpoint written at the end of the epoch
    stores ([train] and [validate] leave the [lr] alone). *)
Fixpoint run_epochs (st : ParamGroup * Scheduler) (epochs : list Z)
  : list (Z * ParamGroup) :=
  match epochs with
  | [] => []
  | e :: es =>
      let st' := sched_step st in
      (e, fst st') :: run_epochs st' es
  end.

(** Lines 173-186, from the optimizer group [g0] (fresh from [get_optimizer],
    or restored from [checkpoint['optimizer']]), [last_epoch] (-1 or
    [checkpoint['epoch']]) and [begin_epoch]. *)
Definition main_lr_schedule (g0 : ParamGroup) (last_epoch begin_epoch end_epoch : Z)
    (lr_step : list Z) (lr_factor : Q) : list (Z * ParamGroup) :=
  let st := MultiStepLR g0 lr_step lr_factor in
  let st := Nat.iter (replay_steps last_epoch) sched_step st in
  run_epochs st (py_range begin_epoch end_epoch).

(** The group in use during epoch [e] of a schedule. *)
Fixpoint group_at (sched : list (Z * ParamGroup)) (e : Z) : option ParamGroup :=
  match sched with
  | [] => None
  | (e', g) :: rest => if Z.eqb e e' then Some g else group_at rest e
  end.

(** A fresh run: [get_optimizer] gives the group [lr = cfg.TRAIN.LR] with no
    [initial_lr]; [last_epoch = -1]; [begin_epoch = 0]. *)
Definition fresh_run (base_lr : Q) (end_epoch : Z) (lr_step : list Z) (lr_factor : Q)
  : list (Z * ParamGroup) :=
  main_lr_schedule (mkGroup base_lr None) (-1) 0 end_epoch lr_step lr_factor.

(** A run resumed from the checkpoint a fresh run writes at the end of epoch
    [n - 1] (its ['epoch'] entry is [n], its ['optimizer'] entry holds the
    group of that epoch): [begin_epoch = last_epoch = n]. *)
Definition resumed_run (base_lr : Q) (n end_epoch : Z) (lr_step : list Z) (lr_factor : Q)
  : option (list (Z * ParamGroup)) :=
  match group_at (fresh_run base_lr end_epoch lr_step lr_factor) (n - 1) with
  | Some g => Some (main_lr_schedule g n n end_epoch lr_step lr_factor)
  | None => None
  end.

End Schedule.

(* ------------------------------------------------------------------------- *)
(** * The epoch loop of [main] (lines 126-229)                                *)
(* ------------------------------------------------------------------------- *)

Module MainLoop.
Import Schedule.
Local Open Scope Q_scope.

(** The two optimizers built at lines 131-132. *)
Inductive OptId : Type := OptGenerator | OptDiscriminator.

(** What a training routine does to an optimizer. *)
Inductive OptEvent : Type :=
| ZeroGrad (o : OptId)
| OptStep (o : OptId).

Definition opt_of (ev : OptEvent) : OptId :=
  match ev with ZeroGrad o | OptStep o => o end.

(** Python numbers: [best_perf_01] starts as the float [0.0] (line 127)
    and is later assigned the int [perf_indicator_01 = 0] (line 207). *)
Inductive PyNum : Type := PyInt (z : Z) | PyFloat (q : Q).

Definition py_val (x : PyNum) : Q :=
  match x with PyInt z => inject_Z z | PyFloat q => q end.

(** Observable events of the epoch loop. *)
Inductive Event : Type :=
| Train (ev : OptEvent)                 (* inside the per-epoch training call *)
| SaveCheckpoint (epoch : Z) (perf : Q) (* [save_checkpoint({'epoch': epoch + 1, ...})] *)
| Report (best : Q) (best01 : PyNum).   (* the print of line 229 *)

Record LoopState : Type :=
  mkLoop { best_perf : Q; best_perf_01 : PyNum; best_model : bool }.

Section Loop.

(** [train(cfg, train_loader, model, criterion, optimizer, epoch, ...)] of
    [core.function] (outside this file): what it does to the optimizers
    given the optimizer it is passed and the epoch. *)
Variable train : OptId -> Z -> list OptEvent.
(** [validate(...)] of [core.function]: the PCKh@0.5 of each epoch. *)
Variable validate : Z -> Q.

(** One iteration of the loop of lines 185-229 (the schedule step of line
    186 is modelled in [Schedule]).  Line 191 passes [optimizer_generator]. *)
Definition epoch_body (st : LoopState) (epoch : Z) : LoopState * list Event :=
  let ev_train := map Train (train OptGenerator epoch) in
  let perf_indicator := validate epoch in
  let perf_indicator_01 := PyInt 0 in
  let '(st', ev_save) :=
    if Qle_bool (best_perf st) perf_indicator
    then (mkLoop perf_indicator perf_indicator_01 true,
          [SaveCheckpoint (epoch + 1) perf_indicator])
    else (mkLoop (best_perf st) (best_perf_01 st) false, []) in
  (st', ev_train ++ ev_save ++ [Report (best_perf st') (best_perf_01 st')]).

Fixpoint epoch_loop (st : LoopState) (epochs : list Z) : LoopState * list Event :=
  match epochs with
  | [] => (st, [])
  | e :: es =>
      let '(st1, ev1) := epoch_body st e in
      let '(st2, ev2) := epoch_loop st1 es in
      (st2, ev1 ++ ev2)
  end.

(** Lines 126-128 and 185: [best_perf0] is [0.0], or [checkpoint['perf']]
    after a resume (line 142); [best_perf_01] is never restored. *)
Definition main_loop (best_perf0 : Q) (begin_epoch end_epoch : Z)
  : LoopState * list Event :=
  epoch_loop (mkLoop best_perf0 (PyFloat 0) false) (py_range begin_epoch end_epoch).

End Loop.

(** A training routine that, on each of [nbatches] batches, zeroes and steps
    the optimizer it is given. *)
Definition train_steps_each_batch (nbatches : nat) (o : OptId) (_ : Z) : list OptEvent :=
  List.concat (repeat [ZeroGrad o; OptStep o] nbatches).

Definition count_steps (o : OptId) (evs : list Event) : nat :=
  List.length (filter (fun ev => match ev with
                            | Train (OptStep o') =>
                                match o, o' with
                                | OptGenerator, OptGenerator
                                | OptDiscriminator, OptDiscriminator => true
                                | _, _ => false
                                end
                            | _ => false
                            end) evs).

End MainLoop.

(* ------------------------------------------------------------------------- *)
(** * [train_GAN] (lines 276-317)                                             *)
(* ------------------------------------------------------------------------- *)

Module TrainGAN.
Import Py MainLoop.
Local Open Scope Q_scope.

(** Events of one call: optimizer calls, forward passes of the two networks,
    backward passes, and the final report of line 317. *)
Inductive GEvent : Type :=
| GOpt (ev : OptEvent)
| Forward (net : string)
| Backward (loss : string)
| ReportAvg (gen disc : Q).

(** A batch, seen through what the networks make of it: the values
    [loss_disc.item()] and [loss_gen.item()] take on it, and the sizes of
    [input], [target] and [outputs = model(input)]. *)
Record Batch : Type := mkBatch {
  loss_disc_item : Q; loss_gen_item : Q;
  input_shape : list nat; target_shape : list nat; output_shape : list nat }.

(** The locals of [train_GAN] that the model tracks: the trace so far, the two
    running totals and the loop variable [i] (unbound until the first
    iteration). *)
Record GState : Type :=
  mkG { trace : list GEvent; avg_disc_loss : Q; avg_gen_loss : Q; i_var : option Z }.

(** Python execution: a state transformer that may raise; the state reached
    when raising is kept. *)
Definition M (A : Type) : Type := GState -> Res A * GState.

Definition ret {A} (a : A) : M A := fun s => (Ok a, s).
Definition mbind {A B} (m : M A) (k : A -> M B) : M B :=
  fun s => match m s with
           | (Ok a, s') => k a s'
           | (Err e, s') => (Err e, s')
           end.
Definition raise {A} (e : PyExc) : M A := fun s => (Err e, s).

Notation "m ;;; k" := (mbind m (fun _ => k)) (at level 61, right associativity).

Definition emit (ev : GEvent) : M unit :=
  fun s => (Ok tt, mkG (trace s ++ [ev]) (avg_disc_loss s) (avg_gen_loss s) (i_var s)).

Definition set_i (i : Z) : M unit :=
  fun s => (Ok tt, mkG (trace s) (avg_disc_loss s) (avg_gen_loss s) (Some i)).

Definition add_disc (x : Q) : M unit :=
  fun s => (Ok tt, mkG (trace s) (avg_disc_loss s + x) (avg_gen_loss s) (i_var s)).

Definition add_gen (x : Q) : M unit :=
  fun s => (Ok tt, mkG (trace s) (avg_disc_loss s) (avg_gen_loss s + x) (i_var s)).

(** The names bound at module level in train_GAN.py (imports and defs). *)
Definition module_globals : list string :=
  ["absolute_import"; "division"; "print_function"; "argparse"; "os"; "pprint";
   "shutil"; "torch"; "cudnn"; "transforms"; "SummaryWriter"; "cfg";
   "update_config"; "JointsMSELoss"; "train"; "validate"; "get_optimizer";
   "save_checkpoint"; "create_logger"; "get_model_summary"; "dataset";
   "models"; "get_omnipose"; "get_pose_net"; "Discriminator"; "resize";
   "warnings"; "tqdm"; "parse_args"; "main"; "_get_loss_disc";
   "get_loss_disc"; "get_loss_gen"; "_resize_images_batch"; "train_GAN"]%string.

(** Reading a name that is neither a local of [train_GAN] nor a global. *)
Definition read_global (globals : list string) (name : string) : M unit :=
  if existsb (String.eqb name) globals then ret tt else raise (NameError name).

(** [torch.cat([a, b], axis=1)] on tensors of sizes [a] and [b]: the sizes
    must agree in every dimension but 1; dimension 1 must exist. *)
Definition cat1_check (a b : list nat) : option PyExc :=
  match a, b with
  | n :: _ :: ra, m :: _ :: rb =>
      if Nat.eqb n m && (if list_eq_dec Nat.eq_dec ra rb then true else false)
      then None
      else Some (RuntimeError "Sizes of tensors must match except in dimension 1")
  | _, _ => Some (IndexError "Dimension out of range")
  end.

Definition torch_cat1 (a b : list nat) : M unit :=
  match cat1_check a b with
  | None => ret tt
  | Some e => raise e
  end.

(** The size [input_resized] would have, were the name bound: the input
    resized to the spatial size of the outputs, as [_resize_images_batch]
    gives. *)
Definition resized_shape (input output : list nat) : list nat :=
  firstn 2 input ++ skipn 2 output.

(** The body of the loop of lines 294-315 on batch number [i]; the forward
    passes of the two networks themselves are taken to succeed. *)
Definition batch_body (globals : list string) (i : Z) (b : Batch) : M unit :=
  set_i i ;;;
  emit (GOpt (ZeroGrad OptDiscriminator)) ;;;   (* line 296 *)
  emit (Forward "model") ;;;                      (* line 297 *)
  torch_cat1 (target_shape b) (input_shape b) ;;; (* line 299 *)
  emit (Forward "discriminator") ;;;
  read_global globals "input_resized" ;;;         (* line 300 *)
  torch_cat1 (output_shape b) (resized_shape (input_shape b) (output_shape b)) ;;;
  emit (Forward "discriminator") ;;;
  add_disc (loss_disc_item b) ;;;                 (* line 303 *)
  emit (Backward "loss_disc") ;;;
  emit (GOpt (OptStep OptDiscriminator)) ;;;     (* line 305 *)
  emit (GOpt (ZeroGrad OptGenerator)) ;;;         (* line 308 *)
  emit (Forward "model") ;;;                      (* line 309 *)
  torch_cat1 (output_shape b) (input_shape b) ;;; (* line 310 *)
  emit (Forward "discriminator") ;;;
  add_gen (loss_gen_item b) ;;;                   (* line 313 *)
  emit (Backward "loss_gen") ;;;
  emit (GOpt (OptStep OptGenerator)).             (* line 315 *)

(** [for i, (...) in enumerate(tbar)], from index [i]. *)
Fixpoint batch_loop (globals : list string) (i : Z) (bs : list Batch) : M unit :=
  match bs with
  | [] => ret tt
  | b :: bs' => batch_body globals i b ;;; batch_loop globals (i + 1) bs'
  end.

(** Line 317: [avg_gen_loss / i] and [avg_disc_loss / i]; [i] is a local that
    is unbound when the loop did not run, and a division by the int [0]
    raises. *)
Definition report : M unit :=
  fun s =>
    match i_var s with
    | None => (Err (UnboundLocalError "i"), s)
    | Some i =>
        if Z.eqb i 0 then (Err ZeroDivisionError, s)
        else emit (ReportAvg (avg_gen_loss s / inject_Z i)
                             (avg_disc_loss s / inject_Z i)) s
    end.

Definition init_state : GState := mkG [] 0 0 None.

(** [train_GAN] on a loader yielding [batches], in a module whose globals are
    [globals] ([module_globals] for the source as it is). *)
Definition train_GAN (globals : list string) (batches : list Batch) : Res unit * GState :=
  (batch_loop globals 0 batches ;;; report) init_state.

End TrainGAN.

(* ------------------------------------------------------------------------- *)
(** * Auxiliary definitions for the statements below                          *)
(* ------------------------------------------------------------------------- *)

Module ScheduleCounts.

(** How many milestone hits [MultiStepLR] meets while its counter
    [last_epoch] runs through [a + 1], ..., [a + k] (a milestone listed twice
    counts twice, as in the [Counter] of the source). *)
Fixpoint decays (ms : list Z) (a : Z) (k : nat) : nat :=
  match k with
  | O => O
  | S k' => Nat.add (decays ms a k') (count_occ Z.eq_dec ms (a + Z.of_nat (S k'))%Z)
  end.

End ScheduleCounts.

Module MainRun.
Import Schedule MainLoop.

Inductive MainEvent : Type :=
| Loop (ev : Event)   (* an event of the epoch loop *)
| SaveFinalState.     (* [torch.save(model.state_dict(), final_state.pth)] *)

(** Lines 185-237: the epoch loop, then the final save of the generator. *)
Definition main_events (train : OptId -> Z -> list OptEvent) (validate : Z -> Q)
    (best_perf0 : Q) (begin_epoch end_epoch : Z) : list MainEvent :=
  map Loop (snd (main_loop train validate best_perf0 begin_epoch end_epoch))
  ++ [SaveFinalState].

(** The ['perf'] entries of the checkpoints written, in order. *)
Definition saved_perfs (evs : list Event) : list Q :=
  flat_map (fun ev => match ev with SaveCheckpoint _ p => [p] | _ => [] end) evs.

(** The number of "Best so far" lines printed. *)
Definition count_reports (evs : list Event) : nat :=
  List.length (filter (fun ev => match ev with Report _ _ => true | _ => false end) evs).

End MainRun.

(* ========================================================================= *)
(** * Theorems                                                               *)
(* ========================================================================= *)

Module LossFacts.
Import Losses.
Local Open Scope R_scope.

Lemma sum_neg (l : list R) :
  l <> [] -> Forall (fun y => y < 0) l -> sum l < 0.
Proof.
  induction l as [|x l IH]; intros Hne Hall; [congruence|].
  inversion Hall as [|? ? Hx Hl]; subst; simpl.
  destruct l as [|y l'].
  - simpl. lra.
  - assert (sum (y :: l') < 0) by (apply IH; [discriminate|exact Hl]). lra.
Qed.

Lemma mean_neg (l : list R) :
  l <> [] -> Forall (fun y => y < 0) l -> mean l < 0.
Proof.
  intros Hne Hall. unfold mean, Rdiv.
  assert (Hs : sum l < 0) by (apply sum_neg; assumption).
  assert (Hn : 0 < INR (List.length l)).
  { apply lt_0_INR. destruct l; [congruence|simpl; lia]. }
  assert (Hi : 0 < / INR (List.length l)) by (apply Rinv_0_lt_compat; exact Hn).
  assert (0 < (- sum l) * / INR (List.length l)) by (apply Rmult_lt_0_compat; lra).
  rewrite Ropp_mult_distr_l_reverse in H. lra.
Qed.

Lemma ln_neg_below_1 (x : R) : 0 < x -> x < 1 -> ln x < 0.
Proof. intros H0 H1. rewrite <- ln_1. apply ln_increasing; assumption. Qed.

Lemma ln_pos_above_1 (x : R) : 1 < x -> 0 < ln x.
Proof. intros H1. rewrite <- ln_1. apply ln_increasing; lra. Qed.

(** C3: [get_loss_disc] is the sum of the two calls of the shared helper
    [_get_loss_disc] (flag [real] false on the fake output, true on the real
    output) and equals [-mean(log(eps + real)) + (-mean(log(eps + 1 - fake)))]
    with [eps = 1e-5].  The source takes the fake output as first argument. *)
Theorem get_loss_disc_formula (disc_real disc_fake : list R) :
  get_loss_disc disc_fake disc_real
    = _get_loss_disc disc_real true + _get_loss_disc disc_fake false
  /\ get_loss_disc disc_fake disc_real
    = - mean (map (fun x => ln (1 / 100000 + x)) disc_real)
      + - mean (map (fun x => ln (1 / 100000 + 1 - x)) disc_fake).
Proof.
  unfold get_loss_disc. split; [ring|].
  unfold _get_loss_disc, eps. ring.
Qed.

(** C4: [get_loss_gen] is the mean of the elementwise squared error plus
    [-mean(log(eps + fake))], the helper called with [real = True], with
    [eps = 1e-5]. *)
Theorem get_loss_gen_formula (outputs disc_fake target : list R) :
  get_loss_gen outputs disc_fake target
    = mean (map2 (fun o t => (o - t) ^ 2) outputs target)
      + - mean (map (fun x => ln (1 / 100000 + x)) disc_fake).
Proof. unfold get_loss_gen, _get_loss_disc, eps. reflexivity. Qed.

(** C5 (counterexample): real output 0.999999 and fake output 0.000001 both
    lie in (0,1), yet the stabilizer pushes both log arguments above 1 and the
    discriminator loss is negative. *)
Lemma get_loss_disc_pos_counterexample :
  ~ (forall disc_real disc_fake : list R,
       Forall (fun x => 0 < x < 1) disc_real ->
       Forall (fun x => 0 < x < 1) disc_fake ->
       0 < get_loss_disc disc_fake disc_real).
Proof.
  intro H.
  specialize (H [999999 / 1000000] [1 / 1000000]).
  assert (Hl : 0 < get_loss_disc [1 / 1000000] [999999 / 1000000])
    by (apply H; repeat constructor; lra).
  unfold get_loss_disc, _get_loss_disc, mean, eps in Hl. simpl in Hl.
  assert (H1 : 0 < ln (1 / 100000 + 999999 / 1000000))
    by (apply ln_pos_above_1; lra).
  assert (H2 : 0 < ln (1 / 100000 + 1 - 1 / 1000000))
    by (apply ln_pos_above_1; lra).
  rewrite !Rplus_0_r in Hl. unfold Rdiv in Hl at 2 4. rewrite Rinv_1 in Hl.
  lra.
Qed.

(** C5 (amended): for non-empty outputs with every real value in
    (0, 1 - eps) and every fake value in (eps, 1), eps = 1e-5, the
    discriminator loss is strictly positive. *)
Theorem get_loss_disc_pos (disc_real disc_fake : list R) :
  disc_real <> [] -> disc_fake <> [] ->
  Forall (fun x => 0 < x < 1 - eps) disc_real ->
  Forall (fun x => eps < x < 1) disc_fake ->
  0 < get_loss_disc disc_fake disc_real.
Proof.
  intros Hr Hf Hallr Hallf. unfold get_loss_disc, _get_loss_disc.
  assert (Mr : mean (map (fun x => ln (eps + x)) disc_real) < 0).
  { apply mean_neg.
    - destruct disc_real; [congruence|discriminate].
    - apply Forall_map. eapply Forall_impl; [|exact Hallr].
      intros x Hx. apply ln_neg_below_1; unfold eps in *; lra. }
  assert (Mf : mean (map (fun x => ln (eps + 1 - x)) disc_fake) < 0).
  { apply mean_neg.
    - destruct disc_fake; [congruence|discriminate].
    - apply Forall_map. eapply Forall_impl; [|exact Hallf].
      intros x Hx. apply ln_neg_below_1; unfold eps in *; lra. }
  lra.
Qed.

End LossFacts.

Module StateLoadFacts.
Import Py StateLoad.

Lemma size_eqb_true (a b : list nat) : size_eqb a b = true <-> a = b.
Proof. unfold size_eqb. destruct (list_eq_dec Nat.eq_dec a b); split; congruence. Qed.

Lemma sd_get_not_in (k : string) (d : StateDict) :
  ~ In k (map fst d) -> sd_get k d = None.
Proof.
  induction d as [|[k' v] d IH]; simpl; intros Hn; [reflexivity|].
  destruct (String.eqb_spec k k'); [subst; tauto|].
  apply IH. tauto.
Qed.

Lemma merge_compatible_keys (live saved : StateDict) (k : string) :
  In k (map fst (fst (merge_compatible live saved))) -> In k (map fst live).
Proof.
  induction live as [|[k0 t0] rest IH]; simpl; [tauto|].
  destruct (merge_compatible rest saved) as [nd sk] eqn:Em. simpl in IH.
  destruct (sd_get k0 saved) as [s|];
    [destruct (size_eqb (size t0) (size s))|]; simpl; intuition.
Qed.

(** Lookup in the merged dict: the saved tensor exactly for the compatible
    keys of the live module. *)
Lemma merge_compatible_get (live saved : StateDict) (k : string) (t : Tensor) :
  NoDup (map fst live) -> In (k, t) live ->
  sd_get k (fst (merge_compatible live saved))
    = if compatible t (sd_get k saved) then sd_get k saved else None.
Proof.
  induction live as [|[k0 t0] rest IH]; simpl; intros Hnd Hin; [tauto|].
  inversion Hnd as [|? ? Hk0 Hnd']; subst.
  destruct (merge_compatible rest saved) as [nd sk] eqn:Em. simpl in IH.
  destruct Hin as [Heq|Hin].
  - inversion Heq; subst k0 t0.
    assert (Hnone : sd_get k nd = None).
    { apply sd_get_not_in. intro Hk. apply Hk0.
      apply (merge_compatible_keys rest saved). rewrite Em. exact Hk. }
    unfold compatible.
    destruct (sd_get k saved) as [s|]; [|exact Hnone].
    destruct (size_eqb (size t) (size s)); simpl;
      [rewrite String.eqb_refl; reflexivity|exact Hnone].
  - assert (Hne : k <> k0).
    { intro; subst. apply Hk0. apply (in_map fst) in Hin. exact Hin. }
    rewrite <- (IH Hnd' Hin).
    destruct (sd_get k0 saved) as [s|];
      [destruct (size_eqb (size t0) (size s))|]; simpl; try reflexivity.
    apply String.eqb_neq in Hne. rewrite Hne. reflexivity.
Qed.

Lemma compat_input_same (t s : Tensor) : size s = size t -> compat_input t s = Ok s.
Proof.
  intros H. unfold compat_input. rewrite H.
  destruct (size t) as [|x l]; reflexivity.
Qed.

(** [load_state_dict] with a dict whose entries for the module's keys all
    have the parameter's size loads them and never raises. *)
Lemma load_state_dict_same_size (module nd : StateDict) :
  (forall k t, In (k, t) module ->
     match sd_get k nd with Some s => size s = size t | None => True end) ->
  load_state_dict module nd
    = Ok (map (fun '(k, t) => (k, match sd_get k nd with Some s => s | None => t end))
              module).
Proof.
  intros H. unfold load_state_dict.
  assert (E : load_params module nd
              = Ok (map (fun '(k, t) => (k, match sd_get k nd with
                                            | Some s => s | None => t end)) module, [])).
  { induction module as [|[k t] rest IH]; simpl; [reflexivity|].
    pose proof (H k t (or_introl eq_refl)) as Hk.
    rewrite IH by (intros k' t' Hin; apply H; right; exact Hin). simpl.
    destruct (sd_get k nd) as [s|]; [|reflexivity].
    rewrite (compat_input_same t s Hk). simpl.
    rewrite Hk. assert (Ht : size_eqb (size t) (size t) = true)
      by (apply size_eqb_true; reflexivity).
    rewrite Ht. reflexivity. }
  rewrite E. reflexivity.
Qed.

(** [load_state_dict] of a dict that, on the module's keys, only holds saved
    tensors of the right size, never raises. *)
Lemma load_state_dict_merged (saved nd : StateDict) (module : StateDict) :
  (forall k t, In (k, t) module ->
     sd_get k nd = if compatible t (sd_get k saved) then sd_get k saved else None) ->
  load_state_dict module nd
    = Ok (map (fun '(k, t) => (k, restored t (sd_get k saved))) module).
Proof.
  intros Hget. rewrite load_state_dict_same_size.
  - f_equal. apply map_ext_in. intros [k t] Hin. simpl.
    rewrite (Hget k t Hin). unfold compatible, restored.
    destruct (sd_get k saved) as [s|]; [|reflexivity].
    destruct (size_eqb (size t) (size s)); reflexivity.
  - intros k t Hin. rewrite (Hget k t Hin). unfold compatible.
    destruct (sd_get k saved) as [s|]; [|exact I].
    destruct (size_eqb (size t) (size s)) eqn:E; [|exact I].
    apply size_eqb_true in E. symmetry. exact E.
Qed.

Lemma merge_compatible_skipped (live saved : StateDict) :
  snd (merge_compatible live saved)
    = map fst (filter (fun '(k, t) => negb (compatible t (sd_get k saved))) live).
Proof.
  induction live as [|[k t] rest IH]; simpl; [reflexivity|].
  destruct (merge_compatible rest saved) as [nd sk] eqn:Em. simpl in IH.
  destruct (sd_get k saved) as [s|] eqn:Es;
    [destruct (size_eqb (size t) (size s)) eqn:Ez|]; simpl;
    rewrite ?Es; simpl; rewrite ?Ez; simpl; rewrite IH; reflexivity.
Qed.

(** C6: the partial restore of lines 145-153 never raises; afterwards every
    parameter of the live module holds the saved tensor when its key is in the
    saved dict with the same size, and keeps its live value otherwise; the
    skipped keys are exactly the other ones, in the module's order. *)
Theorem load_partial_spec (live saved : StateDict) :
  NoDup (map fst live) ->
  load_partial live saved
    = Ok (map (fun '(k, t) => (k, restored t (sd_get k saved))) live,
          map fst (filter (fun '(k, t) => negb (compatible t (sd_get k saved))) live)).
Proof.
  intros Hnd. unfold load_partial.
  pose proof (merge_compatible_skipped live saved) as Hsk.
  pose proof (fun k t => merge_compatible_get live saved k t Hnd) as Hget.
  destruct (merge_compatible live saved) as [nd sk] eqn:Em. simpl in Hsk, Hget.
  rewrite (load_state_dict_merged saved nd live Hget). simpl.
  rewrite Hsk. reflexivity.
Qed.

End StateLoadFacts.

Module StateLoadExamples.
Import Py StateLoad StateLoadFacts.
Local Open Scope string_scope.

(** The spec's example: live ["w"] of size (4,4), saved ["w"] of size (3,3). *)
Example load_partial_size_mismatch :
  load_partial [("w", mkTensor [4; 4]%nat [0%Z])] [("w", mkTensor [3; 3]%nat [1%Z])]
    = Ok ([("w", mkTensor [4; 4]%nat [0%Z])], ["w"]).
Proof. reflexivity. Qed.

(** Witness of C6 on a module with one compatible, one resized and one
    missing parameter, and an extra key in the saved dict. *)
Lemma load_partial_spec_witness :
  NoDup (map fst [("a", mkTensor [2]%nat [0%Z; 0%Z]); ("b", mkTensor [4]%nat [0%Z]);
                  ("c", mkTensor [1]%nat [0%Z])])
  /\ load_partial
       [("a", mkTensor [2]%nat [0%Z; 0%Z]); ("b", mkTensor [4]%nat [0%Z]);
        ("c", mkTensor [1]%nat [0%Z])]
       [("b", mkTensor [3]%nat [9%Z]); ("a", mkTensor [2]%nat [1%Z; 2%Z]);
        ("x", mkTensor [5]%nat [3%Z])]
     = Ok ([("a", mkTensor [2]%nat [1%Z; 2%Z]); ("b", mkTensor [4]%nat [0%Z]);
            ("c", mkTensor [1]%nat [0%Z])], ["b"; "c"]).
Proof.
  assert (Hnd : NoDup (map fst [("a", mkTensor [2]%nat [0%Z; 0%Z]);
                                ("b", mkTensor [4]%nat [0%Z]);
                                ("c", mkTensor [1]%nat [0%Z])])).
  { simpl. repeat constructor; simpl; intuition discriminate. }
  split; [exact Hnd|].
  rewrite (load_partial_spec _ _ Hnd). reflexivity.
Defined.

(** C2 (code bug): line 163 loads the merged discriminator dict into [model].
    With a checkpoint whose discriminator entry ["w"] has the live size, the
    resumed discriminator still holds its fresh value [0,0] rather than the
    saved [1,1]; and when a discriminator key also names a generator
    parameter of another size, the resume raises a [RuntimeError]. *)
Theorem resume_discriminator_not_restored :
  resume_modules
    [("conv.weight", mkTensor [2]%nat [5%Z; 5%Z])]
    [("w", mkTensor [2]%nat [0%Z; 0%Z])]
    [("conv.weight", mkTensor [2]%nat [7%Z; 7%Z])]
    [("w", mkTensor [2]%nat [1%Z; 1%Z])]
  = Ok ([("conv.weight", mkTensor [2]%nat [7%Z; 7%Z])],
        [("w", mkTensor [2]%nat [0%Z; 0%Z])], [])
  /\ sd_get "w" [("w", mkTensor [2]%nat [0%Z; 0%Z])]
     <> sd_get "w" [("w", mkTensor [2]%nat [1%Z; 1%Z])]
  /\ resume_modules
       [("w", mkTensor [4]%nat [5%Z])]
       [("w", mkTensor [2]%nat [0%Z; 0%Z])]
       [("w", mkTensor [4]%nat [7%Z])]
       [("w", mkTensor [2]%nat [1%Z; 1%Z])]
     = Err (RuntimeError "size mismatch for w").
Proof. split; [reflexivity|split; [simpl; discriminate|reflexivity]]. Qed.

End StateLoadExamples.

Module LossWitnesses.
Import Losses LossFacts.
Local Open Scope R_scope.

Lemma get_loss_disc_pos_witness :
  [1 / 2] <> [] /\ [1 / 2] <> [] /\
  Forall (fun x => 0 < x < 1 - eps) [1 / 2] /\
  Forall (fun x => eps < x < 1) [1 / 2] /\
  0 < get_loss_disc [1 / 2] [1 / 2].
Proof.
  assert (Hr : Forall (fun x => 0 < x < 1 - eps) [1 / 2])
    by (repeat constructor; unfold eps; lra).
  assert (Hf : Forall (fun x => eps < x < 1) [1 / 2])
    by (repeat constructor; unfold eps; lra).
  split; [discriminate|split; [discriminate|split; [exact Hr|split; [exact Hf|]]]].
  apply (get_loss_disc_pos [1 / 2] [1 / 2]); [discriminate|discriminate|exact Hr|exact Hf].
Defined.

End LossWitnesses.

Module ScheduleFacts.
Import Schedule.
Local Open Scope Q_scope.

(** C7 (code bug): with milestones [5, 15], factor 0.1 and base lr 1e-3, a
    fresh run trains epoch 10 with lr 1e-4, while a run resumed from the
    checkpoint written at the end of epoch 9 (['epoch'] = 10) trains epoch 10
    with lr 1e-5: the restored optimizer already carries the decayed lr and
    the replay of line 178 decays it once more at each milestone passed.  The
    replay itself makes 0 steps on a fresh start and [n] steps on a resume
    at [n]. *)
Theorem resumed_lr_differs_from_fresh :
  option_map (fun g => Qred (lr g))
    (group_at (fresh_run (1 # 1000) 20 [5; 15]%Z (1 # 10)) 10) = Some (1 # 10000)
  /\ option_map (fun s => option_map (fun g => Qred (lr g)) (group_at s 10))
       (resumed_run (1 # 1000) 10 20 [5; 15]%Z (1 # 10)) = Some (Some (1 # 100000))
  /\ replay_steps (-1) = 0%nat /\ replay_steps 10 = 10%nat.
Proof. vm_compute. repeat split. Qed.

End ScheduleFacts.

Module MainLoopFacts.
Import Schedule MainLoop.
Local Open Scope Q_scope.

Lemma in_train_events (l : list OptEvent) (rest : list Event) (ev : Event) :
  In ev (map Train l ++ rest) -> (exists x, ev = Train x /\ In x l) \/ In ev rest.
Proof.
  rewrite in_app_iff, in_map_iff. intros [[x [Hx Hin]]|H]; [left; eauto|right; exact H].
Qed.

(** C8: in one iteration of the epoch loop, a checkpoint is written exactly
    when [perf_indicator >= best_perf] (ties included); then [best_perf]
    becomes the new metric and [best_model] is set, otherwise both stay
    as they were and no checkpoint is written. *)
Theorem epoch_body_improvement (train : OptId -> Z -> list OptEvent)
    (validate : Z -> Q) (st : LoopState) (epoch : Z) :
  let '(st', evs) := epoch_body train validate st epoch in
  ((exists e p, In (SaveCheckpoint e p) evs) <-> best_perf st <= validate epoch)
  /\ best_perf st' = (if Qle_bool (best_perf st) (validate epoch)
                      then validate epoch else best_perf st)
  /\ best_model st' = Qle_bool (best_perf st) (validate epoch).
Proof.
  unfold epoch_body.
  destruct (Qle_bool (best_perf st) (validate epoch)) eqn:E; simpl.
  - apply Qle_bool_iff in E. repeat split; [|intros _].
    + intros _. exact E.
    + exists (epoch + 1)%Z, (validate epoch). apply in_or_app. right. left. reflexivity.
  - repeat split.
    + intros [e [p Hin]]. apply in_train_events in Hin.
      destruct Hin as [[x [Hx _]]|Hin]; [discriminate|].
      destruct Hin as [Hin|[]]. discriminate.
    + intros Hle. apply Qle_bool_iff in Hle. congruence.
Qed.

Example consider_tie :
  best_model (fst (epoch_body (fun _ _ => []) (fun _ => 80 # 100)
                              (mkLoop (80 # 100) (PyFloat 0) false) 3)) = true.
Proof. reflexivity. Qed.

Example consider_below :
  best_model (fst (epoch_body (fun _ _ => []) (fun _ => 79 # 100)
                              (mkLoop (80 # 100) (PyFloat 0) false) 3)) = false.
Proof. reflexivity. Qed.

Lemma epoch_loop_best01 (train : OptId -> Z -> list OptEvent) (validate : Z -> Q)
    (es : list Z) (st : LoopState) :
  py_val (best_perf_01 st) = 0 ->
  let '(st', evs) := epoch_loop train validate st es in
  py_val (best_perf_01 st') = 0 /\
  forall bp b01, In (Report bp b01) evs -> py_val b01 = 0.
Proof.
  revert st. induction es as [|e es IH]; intros st H0; simpl.
  - split; [exact H0|intros ? ? []].
  - destruct (epoch_body train validate st e) as [st1 ev1] eqn:Eb.
    assert (H1 : py_val (best_perf_01 st1) = 0 /\
                 forall bp b01, In (Report bp b01) ev1 -> py_val b01 = 0).
    { unfold epoch_body in Eb.
      destruct (Qle_bool (best_perf st) (validate e)); inversion Eb; subst; simpl;
        (split; [assumption || reflexivity|]);
        intros bp b01 Hin; apply in_train_events in Hin;
        (destruct Hin as [[x [Hx _]]|Hin]; [discriminate|]);
        simpl in Hin; repeat destruct Hin as [Hin|Hin];
        try discriminate; try contradiction;
        inversion Hin; subst; simpl; first [reflexivity|assumption]. }
    destruct H1 as [H1 R1].
    specialize (IH st1 H1).
    destruct (epoch_loop train validate st1 es) as [st2 ev2].
    destruct IH as [H2 R2]. split; [exact H2|].
    intros bp b01 Hin. apply in_app_iff in Hin. destruct Hin; eauto.
Qed.

(** C10: over any run of the epoch loop, fresh or resumed, whatever the
    validation results, [best_perf_01] stays numerically 0 (the float [0.0]
    or the int [0]) and every PCKh@0.1 value printed at line 229 is 0. *)
Theorem best_perf_01_always_zero (train : OptId -> Z -> list OptEvent)
    (validate : Z -> Q) (best_perf0 : Q) (begin_epoch end_epoch : Z) :
  let '(st, evs) := main_loop train validate best_perf0 begin_epoch end_epoch in
  py_val (best_perf_01 st) = 0 /\
  forall bp b01, In (Report bp b01) evs -> py_val b01 = 0.
Proof. unfold main_loop. apply epoch_loop_best01. reflexivity. Qed.

End MainLoopFacts.

Module MainLoopOptimizers.
Import Schedule MainLoop MainLoopFacts.

Lemma epoch_loop_only_generator (train : OptId -> Z -> list OptEvent)
    (validate : Z -> Q)
    (Htrain : forall o e ev, In ev (train o e) -> opt_of ev = o)
    (es : list Z) (st : LoopState) :
  forall ev, In (Train ev) (snd (epoch_loop train validate st es)) ->
             opt_of ev = OptGenerator.
Proof.
  revert st. induction es as [|e es IH]; intros st ev Hin; simpl in Hin; [contradiction|].
  destruct (epoch_body train validate st e) as [st1 ev1] eqn:Eb.
  destruct (epoch_loop train validate st1 es) as [st2 ev2] eqn:El.
  simpl in Hin. apply in_app_iff in Hin. destruct Hin as [Hin|Hin].
  - unfold epoch_body in Eb.
    destruct (Qle_bool (best_perf st) (validate e)); inversion Eb; subst;
      apply in_train_events in Hin;
      (destruct Hin as [[x [Hx Hx']]|Hin];
       [inversion Hx; subst; exact (Htrain _ _ _ Hx')|]);
      simpl in Hin; repeat destruct Hin as [Hin|Hin];
      try discriminate; contradiction.
  - specialize (IH st1 ev). rewrite El in IH. exact (IH Hin).
Qed.

Lemma count_steps_disc_zero (evs : list Event) :
  (forall ev, In (Train ev) evs -> opt_of ev = OptGenerator) ->
  count_steps OptDiscriminator evs = 0%nat.
Proof.
  induction evs as [|x evs IH]; intros H; [reflexivity|].
  simpl. destruct x as [[o|o]| |];
    try (apply IH; intros ev Hev; apply H; right; exact Hev).
  destruct o.
  - apply IH. intros ev Hev. apply H. right. exact Hev.
  - specialize (H (OptStep OptDiscriminator) (or_introl eq_refl)). discriminate.
Qed.

(** The epoch loop of [main] trains through [train] with
    [optimizer_generator] only (line 191).  For any [train] that only acts on
    the optimizer it is given, every optimizer call of a run is on the
    generator optimizer, and the discriminator optimizer is never stepped. *)
Lemma main_loop_never_steps_discriminator (train : OptId -> Z -> list OptEvent)
    (validate : Z -> Q)
    (Htrain : forall o e ev, In ev (train o e) -> opt_of ev = o)
    (best_perf0 : Q) (begin_epoch end_epoch : Z) :
  (forall ev, In (Train ev) (snd (main_loop train validate best_perf0 begin_epoch end_epoch)) ->
              opt_of ev = OptGenerator)
  /\ count_steps OptDiscriminator
       (snd (main_loop train validate best_perf0 begin_epoch end_epoch)) = 0%nat.
Proof.
  pose proof (epoch_loop_only_generator train validate Htrain
                (py_range begin_epoch end_epoch)
                (mkLoop best_perf0 (PyFloat 0) false)) as H.
  split; [exact H|]. apply count_steps_disc_zero. exact H.
Qed.

Lemma train_steps_each_batch_local (n : nat) :
  forall o e ev, In ev (train_steps_each_batch n o e) -> opt_of ev = o.
Proof.
  intros o e ev. unfold train_steps_each_batch.
  induction n as [|n IH]; simpl; [contradiction|].
  intros [H|[H|H]]; [subst; reflexivity|subst; reflexivity|exact (IH H)].
Qed.

End MainLoopOptimizers.

Module TrainGANFacts.
Import Py MainLoop TrainGAN.
Local Open Scope Q_scope.

(** On any non-empty loader, [train_GAN] raises during the first batch,
    before any optimizer step: at line 299 when [target] and [input] cannot
    be concatenated, otherwise with [NameError] on [input_resized] (line
    300). *)
Lemma train_GAN_raises_on_first_batch (b : Batch) (bs : list Batch) :
  train_GAN module_globals (b :: bs)
  = match cat1_check (target_shape b) (input_shape b) with
    | Some e => (Err e, mkG [GOpt (ZeroGrad OptDiscriminator); Forward "model"]
                            0 0 (Some 0%Z))
    | None => (Err (NameError "input_resized"),
               mkG [GOpt (ZeroGrad OptDiscriminator); Forward "model";
                    Forward "discriminator"] 0 0 (Some 0%Z))
    end.
Proof.
  unfold train_GAN, batch_loop, batch_body, torch_cat1.
  destruct (cat1_check (target_shape b) (input_shape b)); reflexivity.
Qed.

(** C9 (code bug): on an empty loader the report of line 317 reads the loop
    variable [i], never bound, and raises [UnboundLocalError] instead of a
    guarded "no data" report; the divisor is [i], the index of the last
    batch, not the number of batches: were [input_resized] bound, one batch
    (heatmaps at the image size) raises [ZeroDivisionError] and three
    batches of loss 1 report 3/2. *)
Theorem train_GAN_average_unguarded :
  fst (train_GAN module_globals []) = Err (UnboundLocalError "i")
  /\ fst (train_GAN ("input_resized" :: module_globals)%string
           [mkBatch 1 1 [1; 3; 4; 4]%nat [1; 2; 4; 4]%nat [1; 2; 4; 4]%nat])
     = Err ZeroDivisionError
  /\ last (trace (snd (train_GAN ("input_resized" :: module_globals)%string
                         [mkBatch 1 1 [1; 3; 4; 4]%nat [1; 2; 4; 4]%nat [1; 2; 4; 4]%nat;
                          mkBatch 1 1 [1; 3; 4; 4]%nat [1; 2; 4; 4]%nat [1; 2; 4; 4]%nat;
                          mkBatch 1 1 [1; 3; 4; 4]%nat [1; 2; 4; 4]%nat [1; 2; 4; 4]%nat])))
          (Backward "")
     = ReportAvg (3 # 2) (3 # 2).
Proof. vm_compute. repeat split. Qed.

End TrainGANFacts.

Module GANStep.
Import Py MainLoop TrainGAN MainLoopOptimizers TrainGANFacts.

(** C1 (code bug): the per-batch two-phase step (one discriminator update,
    then one generator update) is written in [train_GAN] (lines 294-315),
    but [main] calls [train] with [optimizer_generator] only (line 191) and
    leaves the call to [train_GAN] commented out (lines 193-200).  One epoch
    over a loader of 3 batches, with a [train] that steps the optimizer it
    is given once per batch, makes 3 generator steps and no discriminator
    step.  And [train_GAN] as written, on any non-empty loader, raises during
    the first batch (line 299 or the undefined [input_resized] of line 300)
    before any optimizer step. *)
Theorem main_no_discriminator_step :
  count_steps OptGenerator
    (snd (main_loop (train_steps_each_batch 3) (fun _ => 0%Q) 0%Q 0 1)) = 3%nat
  /\ count_steps OptDiscriminator
       (snd (main_loop (train_steps_each_batch 3) (fun _ => 0%Q) 0%Q 0 1)) = 0%nat
  /\ forall (b : Batch) (bs : list Batch),
       (exists e, fst (train_GAN module_globals (b :: bs)) = Err e)
       /\ forall o, ~ In (GOpt (OptStep o)) (trace (snd (train_GAN module_globals (b :: bs)))).
Proof.
  split; [vm_compute; reflexivity|].
  split; [exact (proj2 (main_loop_never_steps_discriminator (train_steps_each_batch 3)
                          (fun _ => 0%Q) (train_steps_each_batch_local 3) 0%Q 0 1))|].
  intros b bs. rewrite train_GAN_raises_on_first_batch.
  destruct (cat1_check (target_shape b) (input_shape b)); simpl;
    (split; [eexists; reflexivity|]);
    intros o H; repeat destruct H as [H|H]; try discriminate; contradiction.
Qed.

End GANStep.

(* ========================================================================= *)
(** * Further properties of the code                                         *)
(* ========================================================================= *)

Module StateLoadExtra.
Import Py StateLoad StateLoadFacts.

(** The closed form of [load_partial] (lines 145-153). *)
Lemma load_partial_closed (live saved : StateDict) :
  NoDup (map fst live) ->
  load_partial live saved
    = Ok (map (fun '(k, t) => (k, restored t (sd_get k saved))) live,
          map fst (filter (fun '(k, t) => negb (compatible t (sd_get k saved))) live)).
Proof.
  intros Hnd. unfold load_partial.
  pose proof (merge_compatible_skipped live saved) as Hsk.
  pose proof (fun k t => merge_compatible_get live saved k t Hnd) as Hget.
  destruct (merge_compatible live saved) as [nd sk]. simpl in Hsk, Hget.
  rewrite (load_state_dict_merged saved nd live Hget). rewrite Hsk. reflexivity.
Qed.

Lemma restored_idem (t : Tensor) (o : option Tensor) :
  restored (restored t o) o = restored t o.
Proof.
  destruct o as [s|]; simpl; [|reflexivity].
  destruct (size_eqb (size t) (size s)) eqn:E; simpl.
  - destruct (size_eqb (size s) (size s)) eqn:E'; [reflexivity|].
    apply Bool.not_true_iff_false in E'. exfalso. apply E'. apply size_eqb_true. reflexivity.
  - rewrite E. reflexivity.
Qed.

Lemma compatible_restored (t : Tensor) (o : option Tensor) :
  compatible (restored t o) o = compatible t o.
Proof.
  destruct o as [s|]; simpl; [|reflexivity].
  destruct (size_eqb (size t) (size s)) eqn:E; [|exact E].
  apply size_eqb_true. reflexivity.
Qed.

Lemma size_restored (t : Tensor) (o : option Tensor) :
  size (restored t o) = size t.
Proof.
  destruct o as [s|]; simpl; [|reflexivity].
  destruct (size_eqb (size t) (size s)) eqn:E; [|reflexivity].
  symmetry. apply size_eqb_true. exact E.
Qed.

Lemma map_fst_restored (live saved : StateDict) :
  map fst (map (fun '(k, t) => (k, restored t (sd_get k saved))) live) = map fst live.
Proof. induction live as [|[k t] l IH]; simpl; [reflexivity|]. rewrite IH. reflexivity. Qed.

(** The partial restore is idempotent: restoring a second time from the same
    saved dict changes no parameter and skips the same keys. *)
Theorem load_partial_idempotent (live saved : StateDict) :
  NoDup (map fst live) ->
  exists restored_live skipped,
    load_partial live saved = Ok (restored_live, skipped)
    /\ load_partial restored_live saved = Ok (restored_live, skipped).
Proof.
  intros Hnd. do 2 eexists. split; [apply (load_partial_closed _ _ Hnd)|].
  rewrite load_partial_closed by (rewrite map_fst_restored; exact Hnd).
  assert (E1 : forall l : StateDict,
    map (fun '(k, t) => (k, restored t (sd_get k saved)))
        (map (fun '(k, t) => (k, restored t (sd_get k saved))) l)
    = map (fun '(k, t) => (k, restored t (sd_get k saved))) l).
  { induction l as [|[k t] l IH]; simpl; [reflexivity|].
    rewrite restored_idem, IH. reflexivity. }
  assert (E2 : forall l : StateDict,
    map fst (filter (fun '(k, t) => negb (compatible t (sd_get k saved)))
               (map (fun '(k, t) => (k, restored t (sd_get k saved))) l))
    = map fst (filter (fun '(k, t) => negb (compatible t (sd_get k saved))) l)).
  { induction l as [|[k t] l IH]; simpl; [reflexivity|].
    rewrite compatible_restored.
    destruct (negb (compatible t (sd_get k saved))); simpl; rewrite IH; reflexivity. }
  rewrite E1, E2. reflexivity.
Qed.

(** The partial restore never changes the architecture: the restored module
    has the same parameter names, in the same order, with the same sizes. *)
Theorem load_partial_keeps_shapes (live saved : StateDict) :
  NoDup (map fst live) ->
  exists restored_live skipped,
    load_partial live saved = Ok (restored_live, skipped)
    /\ map fst restored_live = map fst live
    /\ map (fun p => size (snd p)) restored_live = map (fun p => size (snd p)) live.
Proof.
  intros Hnd. do 2 eexists. split; [apply (load_partial_closed _ _ Hnd)|].
  split; [apply map_fst_restored|].
  induction live as [|[k t] l IH]; simpl; [reflexivity|].
  inversion Hnd; subst. rewrite size_restored, IH by assumption. reflexivity.
Qed.

Lemma load_partial_idempotent_witness :
  NoDup (map fst [("a", mkTensor [2]%nat [0%Z; 0%Z]); ("b", mkTensor [4]%nat [0%Z])])%string
  /\ exists r s,
    load_partial [("a", mkTensor [2]%nat [0%Z; 0%Z]); ("b", mkTensor [4]%nat [0%Z])]%string
                 [("a", mkTensor [2]%nat [1%Z; 2%Z]); ("b", mkTensor [3]%nat [9%Z])]%string
      = Ok (r, s)
    /\ load_partial r [("a", mkTensor [2]%nat [1%Z; 2%Z]); ("b", mkTensor [3]%nat [9%Z])]%string
      = Ok (r, s).
Proof.
  assert (Hnd : NoDup (map fst [("a", mkTensor [2]%nat [0%Z; 0%Z]);
                                ("b", mkTensor [4]%nat [0%Z])])%string).
  { simpl. repeat constructor; simpl; intuition discriminate. }
  split; [exact Hnd|]. exact (load_partial_idempotent _ _ Hnd).
Defined.

Lemma load_partial_keeps_shapes_witness :
  NoDup (map fst [("a", mkTensor [2]%nat [0%Z; 0%Z]); ("b", mkTensor [4]%nat [0%Z])])%string
  /\ exists r s,
    load_partial [("a", mkTensor [2]%nat [0%Z; 0%Z]); ("b", mkTensor [4]%nat [0%Z])]%string
                 [("b", mkTensor [3]%nat [9%Z])]%string = Ok (r, s)
    /\ map fst r = ["a"; "b"]%string
    /\ map (fun p => size (snd p)) r = [[2]; [4]]%nat.
Proof.
  assert (Hnd : NoDup (map fst [("a", mkTensor [2]%nat [0%Z; 0%Z]);
                                ("b", mkTensor [4]%nat [0%Z])])%string).
  { simpl. repeat constructor; simpl; intuition discriminate. }
  split; [exact Hnd|].
  exact (load_partial_keeps_shapes _ _ Hnd).
Defined.

Lemma load_state_dict_ignores (module d : StateDict) :
  (forall k t, In (k, t) module -> sd_get k d = None) ->
  load_state_dict module d = Ok module.
Proof.
  intros H. rewrite load_state_dict_same_size.
  - apply (f_equal (@Ok StateDict)). rewrite <- (map_id module) at 2. apply map_ext_in.
    intros [k t] Hin. simpl. rewrite (H k t Hin). reflexivity.
  - intros k t Hin. rewrite (H k t Hin). exact I.
Qed.

Lemma sd_get_in_nodup (d : StateDict) (k : string) (t : Tensor) :
  NoDup (map fst d) -> In (k, t) d -> sd_get k d = Some t.
Proof.
  induction d as [|[k0 t0] d IH]; simpl; intros Hnd Hin; [contradiction|].
  inversion Hnd as [|? ? Hk0 Hnd']; subst.
  destruct Hin as [Heq|Hin].
  - inversion Heq; subst. rewrite String.eqb_refl. reflexivity.
  - destruct (String.eqb_spec k k0) as [->|_]; [|exact (IH Hnd' Hin)].
    exfalso. apply Hk0. apply (in_map fst) in Hin. exact Hin.
Qed.

(** Round trip: loading a module's own [state_dict()] back into it succeeds
    and leaves every parameter as it was. *)
Theorem load_state_dict_own (module : StateDict) :
  NoDup (map fst module) -> load_state_dict module module = Ok module.
Proof.
  intros Hnd. rewrite load_state_dict_same_size.
  - apply (f_equal (@Ok StateDict)). rewrite <- (map_id module) at 2. apply map_ext_in.
    intros [k t] Hin. simpl. rewrite (sd_get_in_nodup module k t Hnd Hin). reflexivity.
  - intros k t Hin. rewrite (sd_get_in_nodup module k t Hnd Hin). reflexivity.
Qed.

Lemma load_state_dict_own_witness :
  NoDup (map fst [("a", mkTensor [2]%nat [1%Z; 2%Z]); ("b", mkTensor [1]%nat [3%Z])])%string
  /\ load_state_dict [("a", mkTensor [2]%nat [1%Z; 2%Z]); ("b", mkTensor [1]%nat [3%Z])]%string
                     [("a", mkTensor [2]%nat [1%Z; 2%Z]); ("b", mkTensor [1]%nat [3%Z])]%string
     = Ok [("a", mkTensor [2]%nat [1%Z; 2%Z]); ("b", mkTensor [1]%nat [3%Z])]%string.
Proof.
  assert (Hnd : NoDup (map fst [("a", mkTensor [2]%nat [1%Z; 2%Z]);
                                ("b", mkTensor [1]%nat [3%Z])])%string).
  { simpl. repeat constructor; simpl; intuition discriminate. }
  split; [exact Hnd|]. exact (load_state_dict_own _ Hnd).
Defined.

(** When no discriminator parameter shares a name with a generator
    parameter, the resume never raises: the generator is partially restored
    from [checkpoint['state_dict']], the discriminator keeps its fresh values,
    and the skipped keys are the generator's incompatible keys followed by all
    the discriminator's incompatible keys. *)
Theorem resume_modules_disjoint (model discriminator ckpt ckpt_disc : StateDict) :
  NoDup (map fst model) ->
  (forall k, In k (map fst discriminator) -> ~ In k (map fst model)) ->
  resume_modules model discriminator ckpt ckpt_disc
  = Ok (map (fun '(k, t) => (k, restored t (sd_get k ckpt))) model,
        discriminator,
        map fst (filter (fun '(k, t) => negb (compatible t (sd_get k ckpt))) model)
        ++ map fst (filter (fun '(k, t) => negb (compatible t (sd_get k ckpt_disc)))
                           discriminator)).
Proof.
  intros Hnd Hdis. unfold resume_modules.
  rewrite (load_partial_closed model ckpt Hnd). simpl.
  pose proof (merge_compatible_skipped discriminator ckpt_disc) as Hsk.
  pose proof (merge_compatible_keys discriminator ckpt_disc) as Hkeys.
  destruct (merge_compatible discriminator ckpt_disc) as [nd s2]. simpl in Hsk, Hkeys.
  rewrite load_state_dict_ignores.
  - simpl. rewrite Hsk. reflexivity.
  - intros k t Hin. apply sd_get_not_in. intro Hk.
    apply (Hdis k (Hkeys k Hk)).
    apply (in_map fst) in Hin. simpl in Hin. rewrite map_fst_restored in Hin. exact Hin.
Qed.

Lemma resume_modules_disjoint_witness :
  NoDup (map fst [("g", mkTensor [2]%nat [5%Z; 5%Z])]%string)
  /\ (forall k, In k (map fst [("w", mkTensor [2]%nat [0%Z; 0%Z])]%string) ->
                ~ In k (map fst [("g", mkTensor [2]%nat [5%Z; 5%Z])]%string))
  /\ resume_modules [("g", mkTensor [2]%nat [5%Z; 5%Z])]%string
                    [("w", mkTensor [2]%nat [0%Z; 0%Z])]%string
                    [("g", mkTensor [2]%nat [7%Z; 7%Z])]%string
                    [("w", mkTensor [2]%nat [1%Z; 1%Z])]%string
     = Ok ([("g", mkTensor [2]%nat [7%Z; 7%Z])]%string,
           [("w", mkTensor [2]%nat [0%Z; 0%Z])]%string, []).
Proof.
  assert (Hnd : NoDup (map fst [("g", mkTensor [2]%nat [5%Z; 5%Z])]%string))
    by (simpl; repeat constructor; simpl; tauto).
  assert (Hdis : forall k, In k (map fst [("w", mkTensor [2]%nat [0%Z; 0%Z])]%string) ->
                           ~ In k (map fst [("g", mkTensor [2]%nat [5%Z; 5%Z])]%string)).
  { simpl. intros k [<-|[]] [H|[]]. discriminate. }
  split; [exact Hnd|split; [exact Hdis|]].
  exact (resume_modules_disjoint _ _ [("g", mkTensor [2]%nat [7%Z; 7%Z])]%string
           [("w", mkTensor [2]%nat [1%Z; 1%Z])]%string Hnd Hdis).
Defined.

End StateLoadExtra.

Module ScheduleExtra.
Import Schedule ScheduleCounts.
Local Open Scope Q_scope.

Lemma qpow_add (q : Q) (m n : nat) : qpow q (m + n) == qpow q m * qpow q n.
Proof.
  induction m as [|m IH]; simpl.
  - ring.
  - rewrite IH. ring.
Qed.

Lemma get_lr_eq (g : ParamGroup) (s : Scheduler) :
  get_lr g s == lr g * qpow (gamma s) (count_occ Z.eq_dec (milestones s) (last_epoch s)).
Proof.
  unfold get_lr. destruct (count_occ Z.eq_dec (milestones s) (last_epoch s)).
  - simpl. ring.
  - reflexivity.
Qed.

(** [k] scheduler steps from a state with counter [last_epoch s]. *)
Lemma iter_sched (k : nat) (g : ParamGroup) (s : Scheduler) :
  let st := Nat.iter k sched_step (g, s) in
  last_epoch (snd st) = (last_epoch s + Z.of_nat k)%Z
  /\ milestones (snd st) = milestones s /\ gamma (snd st) = gamma s
  /\ initial_lr (fst st) = initial_lr g
  /\ lr (fst st) == lr g * qpow (gamma s) (decays (milestones s) (last_epoch s) k).
Proof.
  induction k as [|k IH]; simpl.
  - repeat split; [lia|ring].
  - destruct (Nat.iter k sched_step (g, s)) as [g' s'] eqn:E. simpl in IH |- *.
    destruct IH as (H1 & H2 & H3 & H4 & H5).
    repeat split.
    + rewrite H1. lia.
    + exact H2.
    + exact H3.
    + exact H4.
    + rewrite get_lr_eq. simpl. rewrite H5, H2, H3, H1, qpow_add.
      replace (last_epoch s + Z.of_nat k + 1)%Z with (last_epoch s + Z.pos (Pos.of_succ_nat k))%Z
        by lia.
      ring.
Qed.

Lemma group_at_run (n s : nat) (a e : Z) (st : ParamGroup * Scheduler) :
  (a + Z.of_nat s <= e < a + Z.of_nat (s + n))%Z ->
  group_at (run_epochs st (map (fun m => (a + Z.of_nat m)%Z) (seq s n))) e
  = Some (fst (Nat.iter (S (Z.to_nat (e - a) - s)) sched_step st)).
Proof.
  revert s st. induction n as [|n IH]; intros s st Hr; [lia|].
  cbn [seq map run_epochs group_at].
  destruct (Z.eqb_spec e (a + Z.of_nat s)) as [He|He].
  - replace (Z.to_nat (e - a) - s)%nat with 0%nat by lia. reflexivity.
  - rewrite IH by lia.
    replace (Z.to_nat (e - a) - s)%nat with (S (Z.to_nat (e - a) - S s)) by lia.
    rewrite (Nat.iter_succ_r (S (Z.to_nat (e - a) - S s))). reflexivity.
Qed.

Lemma group_at_schedule (g0 : ParamGroup) (le b en : Z) (ms : list Z) (gm : Q) (e : Z) :
  (b <= e < en)%Z ->
  group_at (main_lr_schedule g0 le b en ms gm) e
  = Some (fst (Nat.iter (Z.to_nat (e - b) + 1 + replay_steps le + 1) sched_step
                 (mkGroup (lr g0) (Some (match initial_lr g0 with
                                         | Some l => l | None => lr g0 end)),
                  mkSched (-1) ms gm))).
Proof.
  intros He. unfold main_lr_schedule, py_range.
  rewrite group_at_run by lia.
  rewrite <- !Nat.iter_add. unfold MultiStepLR.
  replace (S (Z.to_nat (e - b) - 0)) with (Z.to_nat (e - b) + 1)%nat by lia.
  change (sched_step ?x) with (Nat.iter 1 sched_step x).
  rewrite <- !Nat.iter_add. reflexivity.
Qed.

(** In a fresh run (optimizer lr [base_lr], milestones [ms], factor [gm]),
    epoch [e] trains with [base_lr] decayed once per milestone hit by the
    scheduler counter at 0, 1, ..., [e + 1]: the scheduler is stepped before
    training (line 186), so a milestone [m] already applies to epoch
    [m - 1]. *)
Theorem fresh_run_lr (base_lr : Q) (end_epoch e : Z) (ms : list Z) (gm : Q) :
  (0 <= e < end_epoch)%Z ->
  exists g, group_at (fresh_run base_lr end_epoch ms gm) e = Some g
            /\ lr g == base_lr * qpow gm (decays ms (-1) (Z.to_nat e + 2)).
Proof.
  intros He. unfold fresh_run. rewrite group_at_schedule by exact He.
  eexists. split; [reflexivity|].
  destruct (iter_sched (Z.to_nat (e - 0) + 1 + replay_steps (-1) + 1)
              (mkGroup base_lr (Some base_lr)) (mkSched (-1) ms gm))
    as (_ & _ & _ & _ & H). simpl in H. rewrite H.
  replace (Z.to_nat (e - 0) + 1 + 0 + 1)%nat with (Z.to_nat e + 2)%nat by lia.
  reflexivity.
Qed.

(** A run resumed at [n >= 1] from the checkpoint of a fresh run trains every
    later epoch [e] with the fresh run's lr decayed once more for each
    milestone hit at 0, ..., [n]: the optimizer is restored with its decayed
    lr (line 169) and the replay of line 178 applies those decays again. *)
Theorem resumed_run_lr (base_lr : Q) (n end_epoch e : Z) (ms : list Z) (gm : Q) :
  (1 <= n)%Z -> (n <= e < end_epoch)%Z ->
  exists gf sched gr,
    group_at (fresh_run base_lr end_epoch ms gm) e = Some gf
    /\ resumed_run base_lr n end_epoch ms gm = Some sched
    /\ group_at sched e = Some gr
    /\ lr gr == lr gf * qpow gm (decays ms (-1) (Z.to_nat n + 1)).
Proof.
  intros Hn He.
  assert (Hf : forall e', (0 <= e' < end_epoch)%Z ->
    group_at (fresh_run base_lr end_epoch ms gm) e'
    = Some (fst (Nat.iter (Z.to_nat e' + 2) sched_step
                   (mkGroup base_lr (Some base_lr), mkSched (-1) ms gm)))).
  { intros e' He'. unfold fresh_run. rewrite group_at_schedule by exact He'.
    simpl. do 3 f_equal. unfold replay_steps. simpl. lia. }
  set (g := fst (Nat.iter (Z.to_nat (n - 1) + 2) sched_step
                   (mkGroup base_lr (Some base_lr), mkSched (-1) ms gm))).
  destruct (iter_sched (Z.to_nat (n - 1) + 2) (mkGroup base_lr (Some base_lr))
              (mkSched (-1) ms gm)) as (_ & _ & _ & Hgi & Hgl).
  fold g in Hgi, Hgl. simpl in Hgi, Hgl.
  exists (fst (Nat.iter (Z.to_nat e + 2) sched_step
                 (mkGroup base_lr (Some base_lr), mkSched (-1) ms gm))).
  exists (main_lr_schedule g n n end_epoch ms gm).
  eexists. split; [apply Hf; lia|]. split.
  { unfold resumed_run. rewrite Hf by lia. reflexivity. }
  split; [rewrite group_at_schedule by lia; reflexivity|].
  rewrite Hgi.
  destruct (iter_sched (Z.to_nat (e - n) + 1 + replay_steps n + 1)
              (mkGroup (lr g) (Some base_lr)) (mkSched (-1) ms gm))
    as (_ & _ & _ & _ & Hr). simpl in Hr. rewrite Hr.
  destruct (iter_sched (Z.to_nat e + 2) (mkGroup base_lr (Some base_lr))
              (mkSched (-1) ms gm)) as (_ & _ & _ & _ & Hfe). simpl in Hfe. rewrite Hfe.
  rewrite Hgl.
  replace (Z.to_nat (e - n) + 1 + replay_steps n + 1)%nat with (Z.to_nat e + 2)%nat
    by (unfold replay_steps; lia).
  replace (Z.to_nat (n - 1) + 2)%nat with (Z.to_nat n + 1)%nat by lia.
  ring.
Qed.

Lemma fresh_run_lr_witness :
  (0 <= 4 < 20)%Z
  /\ exists g, group_at (fresh_run (1 # 1000) 20 [5; 15]%Z (1 # 10)) 4 = Some g
               /\ lr g == (1 # 1000) * qpow (1 # 10) (decays [5; 15]%Z (-1) (Z.to_nat 4 + 2)).
Proof. split; [lia|]. apply fresh_run_lr. lia. Defined.

Lemma resumed_run_lr_witness :
  (1 <= 10)%Z /\ (10 <= 12 < 20)%Z
  /\ exists gf sched gr,
    group_at (fresh_run (1 # 1000) 20 [5; 15]%Z (1 # 10)) 12 = Some gf
    /\ resumed_run (1 # 1000) 10 20 [5; 15]%Z (1 # 10) = Some sched
    /\ group_at sched 12 = Some gr
    /\ lr gr == lr gf * qpow (1 # 10) (decays [5; 15]%Z (-1) (Z.to_nat 10 + 1)).
Proof. split; [lia|split; [lia|]]. apply resumed_run_lr; lia. Defined.

End ScheduleExtra.

Module MainLoopExtra.
Import Schedule MainLoop MainLoopFacts MainRun.
Local Open Scope Q_scope.

Section WithRoutines.
Variable train : OptId -> Z -> list OptEvent.
Variable validate : Z -> Q.

Lemma saved_perfs_app (a b : list Event) :
  saved_perfs (a ++ b) = saved_perfs a ++ saved_perfs b.
Proof. unfold saved_perfs. apply flat_map_app. Qed.

Lemma saved_perfs_train (l : list OptEvent) : saved_perfs (map Train l) = [].
Proof. induction l; simpl; auto. Qed.

Lemma count_reports_app (a b : list Event) :
  count_reports (a ++ b) = (count_reports a + count_reports b)%nat.
Proof. unfold count_reports. rewrite filter_app, length_app. reflexivity. Qed.

Lemma count_reports_train (l : list OptEvent) : count_reports (map Train l) = 0%nat.
Proof. induction l; simpl; auto. Qed.

Lemma epoch_loop_best (es : list Z) (st : LoopState) :
  let final := best_perf (fst (epoch_loop train validate st es)) in
  best_perf st <= final
  /\ (forall e, In e es -> validate e <= final)
  /\ (final = best_perf st \/ exists e, In e es /\ final = validate e).
Proof.
  revert st. induction es as [|e es IH]; intros st; simpl.
  - split; [apply Qle_refl|split; [intros _ []|left; reflexivity]].
  - destruct (epoch_body train validate st e) as [st1 ev1] eqn:Eb.
    destruct (epoch_loop train validate st1 es) as [st2 ev2] eqn:El. simpl.
    specialize (IH st1). rewrite El in IH. simpl in IH.
    destruct IH as (I1 & I2 & I3).
    assert (Hb : best_perf st <= best_perf st1 /\ validate e <= best_perf st1
                 /\ (best_perf st1 = best_perf st \/ best_perf st1 = validate e)).
    { unfold epoch_body in Eb.
      destruct (Qle_bool (best_perf st) (validate e)) eqn:E; inversion Eb; subst; simpl.
      - apply Qle_bool_iff in E. split; [exact E|split; [apply Qle_refl|right; reflexivity]].
      - split; [apply Qle_refl|split; [|left; reflexivity]].
        apply Qlt_le_weak. apply Qnot_le_lt. intro H. apply Qle_bool_iff in H. congruence. }
    destruct Hb as (B1 & B2 & B3).
    split; [exact (Qle_trans _ _ _ B1 I1)|split].
    + intros e' [<-|Hin]; [exact (Qle_trans _ _ _ B2 I1)|exact (I2 e' Hin)].
    + destruct I3 as [I3|(e' & Hin & I3)]; [|right; exists e'; auto].
      rewrite I3. destruct B3 as [B3|B3]; [left; exact B3|right; exists e; auto].
Qed.

Lemma epoch_loop_saves (es : list Z) (st : LoopState) :
  Sorted Qle (best_perf st :: saved_perfs (snd (epoch_loop train validate st es)))
  /\ (forall ep p, In (SaveCheckpoint ep p) (snd (epoch_loop train validate st es)) ->
        exists e, In e es /\ ep = (e + 1)%Z /\ p = validate e).
Proof.
  revert st. induction es as [|e es IH]; intros st; simpl.
  - split; [repeat constructor|intros ? ? []].
  - destruct (epoch_body train validate st e) as [st1 ev1] eqn:Eb.
    destruct (epoch_loop train validate st1 es) as [st2 ev2] eqn:El. simpl.
    specialize (IH st1). rewrite El in IH. simpl in IH. destruct IH as [IS IE].
    rewrite saved_perfs_app.
    unfold epoch_body in Eb.
    destruct (Qle_bool (best_perf st) (validate e)) eqn:E; inversion Eb; subst; clear Eb.
    + rewrite saved_perfs_app, saved_perfs_train. simpl in IS |- *.
      split.
      * constructor; [exact IS|]. constructor. apply Qle_bool_iff. exact E.
      * intros ep p Hin. apply in_app_iff in Hin. destruct Hin as [Hin|Hin];
          [|destruct (IE ep p Hin) as (e' & ? & ? & ?); exists e'; auto].
        apply in_train_events in Hin.
        destruct Hin as [[x [Hx _]]|Hin]; [discriminate|].
        destruct Hin as [Hin|[Hin|[]]]; [|discriminate].
        inversion Hin; subst. exists e. auto.
    + rewrite saved_perfs_app, saved_perfs_train. simpl in IS |- *.
      split; [exact IS|].
      intros ep p Hin. apply in_app_iff in Hin. destruct Hin as [Hin|Hin];
        [|destruct (IE ep p Hin) as (e' & ? & ? & ?); exists e'; auto].
      apply in_train_events in Hin.
      destruct Hin as [[x [Hx _]]|Hin]; [discriminate|].
      destruct Hin as [Hin|[]]. discriminate.
Qed.

Lemma epoch_loop_reports (es : list Z) (st : LoopState) :
  count_reports (snd (epoch_loop train validate st es)) = List.length es.
Proof.
  revert st. induction es as [|e es IH]; intros st; simpl; [reflexivity|].
  destruct (epoch_body train validate st e) as [st1 ev1] eqn:Eb.
  specialize (IH st1).
  destruct (epoch_loop train validate st1 es) as [st2 ev2]. simpl in IH |- *.
  rewrite count_reports_app, IH.
  unfold epoch_body in Eb.
  destruct (Qle_bool (best_perf st) (validate e)); inversion Eb; subst;
    rewrite count_reports_app, count_reports_train; reflexivity.
Qed.

End WithRoutines.

Lemma py_range_length (a b : Z) : List.length (py_range a b) = Z.to_nat (b - a).
Proof. unfold py_range. rewrite length_map, length_seq. reflexivity. Qed.

Lemma in_py_range (a b e : Z) : In e (py_range a b) -> (a <= e < b)%Z.
Proof.
  unfold py_range. rewrite in_map_iff. intros (n & <- & Hn).
  apply in_seq in Hn. lia.
Qed.

(** After the epoch loop, [best_perf] is the maximum of its initial value
    (0.0, or [checkpoint['perf']] on resume) and of the validation results of
    all epochs run, and it is one of these values. *)
Theorem main_loop_best_is_max (train : OptId -> Z -> list OptEvent) (validate : Z -> Q)
    (best_perf0 : Q) (begin_epoch end_epoch : Z) :
  let final := best_perf (fst (main_loop train validate best_perf0 begin_epoch end_epoch)) in
  best_perf0 <= final
  /\ (forall e, (begin_epoch <= e < end_epoch)%Z -> validate e <= final)
  /\ (final = best_perf0
      \/ exists e, (begin_epoch <= e < end_epoch)%Z /\ final = validate e).
Proof.
  unfold main_loop.
  destruct (epoch_loop_best train validate (py_range begin_epoch end_epoch)
              (mkLoop best_perf0 (PyFloat 0) false)) as (H1 & H2 & H3).
  simpl in H1, H3. split; [exact H1|split].
  - intros e He. apply H2. unfold py_range. apply in_map_iff.
    exists (Z.to_nat (e - begin_epoch)). split; [lia|]. apply in_seq. lia.
  - destruct H3 as [H3|(e & Hin & H3)]; [left; exact H3|].
    right. exists e. split; [apply in_py_range; exact Hin|exact H3].
Qed.

(** The checkpoints written during a run carry non-decreasing ['perf']
    values, none below the initial [best_perf]; each one written at epoch
    [e] has ['epoch'] = [e + 1] and ['perf'] = the validation result of
    epoch [e]. *)
Theorem main_loop_checkpoints_monotone (train : OptId -> Z -> list OptEvent)
    (validate : Z -> Q) (best_perf0 : Q) (begin_epoch end_epoch : Z) :
  let evs := snd (main_loop train validate best_perf0 begin_epoch end_epoch) in
  Sorted Qle (best_perf0 :: saved_perfs evs)
  /\ (forall ep p, In (SaveCheckpoint ep p) evs ->
        exists e, (begin_epoch <= e < end_epoch)%Z /\ ep = (e + 1)%Z /\ p = validate e).
Proof.
  unfold main_loop.
  destruct (epoch_loop_saves train validate (py_range begin_epoch end_epoch)
              (mkLoop best_perf0 (PyFloat 0) false)) as [H1 H2].
  split; [exact H1|].
  intros ep p Hin. destruct (H2 ep p Hin) as (e & He & ? & ?).
  exists e. split; [apply in_py_range; exact He|auto].
Qed.

(** A run prints exactly one "Best so far" line per epoch of
    [range(begin_epoch, END_EPOCH)] and ends with a single save of
    [final_state.pth], whether or not any epoch improved. *)
Theorem main_events_shape (train : OptId -> Z -> list OptEvent) (validate : Z -> Q)
    (best_perf0 : Q) (begin_epoch end_epoch : Z) :
  count_reports (snd (main_loop train validate best_perf0 begin_epoch end_epoch))
    = Z.to_nat (end_epoch - begin_epoch)
  /\ (exists evs, main_events train validate best_perf0 begin_epoch end_epoch
                  = map Loop evs ++ [SaveFinalState]
                  /\ count_reports evs = Z.to_nat (end_epoch - begin_epoch))
  /\ ~ In SaveFinalState
         (map Loop (snd (main_loop train validate best_perf0 begin_epoch end_epoch))).
Proof.
  assert (Hc : count_reports (snd (main_loop train validate best_perf0 begin_epoch end_epoch))
               = Z.to_nat (end_epoch - begin_epoch)).
  { unfold main_loop. rewrite epoch_loop_reports. apply py_range_length. }
  split; [exact Hc|split].
  - eexists. split; [reflexivity|exact Hc].
  - rewrite in_map_iff. intros (x & Hx & _). discriminate.
Qed.

End MainLoopExtra.

Module LossExtra.
Import Losses.
Local Open Scope R_scope.

Lemma ln_le_mono (x y : R) : 0 < x -> x <= y -> ln x <= ln y.
Proof.
  intros Hx Hxy. destruct (Rle_lt_or_eq_dec x y Hxy) as [H|H].
  - left. apply ln_increasing; assumption.
  - right. rewrite H. reflexivity.
Qed.

Lemma sum_bounds (a b : R) (l : list R) :
  Forall (fun y => a <= y <= b) l ->
  INR (List.length l) * a <= sum l <= INR (List.length l) * b.
Proof.
  induction l as [|x l IH]; intros Hall; cbn [List.length sum].
  - simpl. lra.
  - inversion Hall as [|? ? Hx Hl]; subst. specialize (IH Hl).
    rewrite S_INR. lra.
Qed.

Lemma mean_bounds (a b : R) (l : list R) :
  l <> [] -> Forall (fun y => a <= y <= b) l -> a <= mean l <= b.
Proof.
  intros Hne Hall. destruct (sum_bounds a b l Hall) as [H1 H2].
  assert (Hn : 0 < INR (List.length l)).
  { apply lt_0_INR. destruct l; [congruence|simpl; lia]. }
  unfold mean, Rdiv.
  assert (Hi : 0 < / INR (List.length l)) by (apply Rinv_0_lt_compat; exact Hn).
  split.
  - replace a with (INR (List.length l) * a * / INR (List.length l)) by (field; lra).
    apply Rmult_le_compat_r; lra.
  - replace b with (INR (List.length l) * b * / INR (List.length l)) by (field; lra).
    apply Rmult_le_compat_r; lra.
Qed.

Lemma mean_zero (l : list R) : Forall (fun y => y = 0) l -> mean l = 0.
Proof.
  intros Hall. unfold mean.
  assert (sum l = 0).
  { induction l as [|x l IH]; simpl; [reflexivity|].
    inversion Hall; subst. rewrite IH by assumption. ring. }
  rewrite H. unfold Rdiv. ring.
Qed.

Lemma log_term_bounds (x : R) :
  0 <= x <= 1 -> ln eps <= ln (eps + x) <= ln (1 + eps).
Proof.
  intros Hx. unfold eps in *.
  split; apply ln_le_mono; lra.
Qed.

(** On outputs saturated anywhere in [0, 1], the stabilizer keeps every
    logarithm's argument at least [eps]: the discriminator loss of
    non-empty tensors lies between [-2 ln(1 + eps)] and [-2 ln eps]
    (about 23.03). *)
Theorem get_loss_disc_bounded (disc_fake disc_real : list R) :
  disc_fake <> [] -> disc_real <> [] ->
  Forall (fun x => 0 <= x <= 1) disc_fake -> Forall (fun x => 0 <= x <= 1) disc_real ->
  -2 * ln (1 + eps) <= get_loss_disc disc_fake disc_real <= -2 * ln eps.
Proof.
  intros Hf Hr Af Ar. unfold get_loss_disc, _get_loss_disc.
  assert (Mf : ln eps <= mean (map (fun x => ln (eps + 1 - x)) disc_fake) <= ln (1 + eps)).
  { apply mean_bounds.
    - destruct disc_fake; [congruence|discriminate].
    - apply Forall_map. eapply Forall_impl; [|exact Af]. intros x Hx.
      replace (eps + 1 - x) with (eps + (1 - x)) by ring.
      apply log_term_bounds. lra. }
  assert (Mr : ln eps <= mean (map (fun x => ln (eps + x)) disc_real) <= ln (1 + eps)).
  { apply mean_bounds.
    - destruct disc_real; [congruence|discriminate].
    - apply Forall_map. eapply Forall_impl; [|exact Ar]. intros x Hx.
      apply log_term_bounds. exact Hx. }
  lra.
Qed.

Lemma get_loss_disc_bounded_witness :
  [0] <> [] /\ [1] <> [] /\ Forall (fun x => 0 <= x <= 1) [0] /\ Forall (fun x => 0 <= x <= 1) [1]
  /\ -2 * ln (1 + eps) <= get_loss_disc [0] [1] <= -2 * ln eps.
Proof.
  assert (H0 : Forall (fun x => 0 <= x <= 1) [0]) by (repeat constructor; lra).
  assert (H1 : Forall (fun x => 0 <= x <= 1) [1]) by (repeat constructor; lra).
  split; [discriminate|split; [discriminate|split; [exact H0|split; [exact H1|]]]].
  exact (get_loss_disc_bounded [0] [1] ltac:(discriminate) ltac:(discriminate) H0 H1).
Defined.

Lemma sum_nonneg (l : list R) : Forall (fun y => 0 <= y) l -> 0 <= sum l.
Proof.
  induction l as [|x l IH]; intros Hall; simpl; [lra|].
  inversion Hall; subst. specialize (IH H2). lra.
Qed.

Lemma map2_sq_nonneg (a b : list R) :
  Forall (fun y => 0 <= y) (map2 (fun o t => (o - t) ^ 2) a b).
Proof.
  revert b. induction a as [|x a IH]; intros [|y b]; simpl; constructor; auto.
  apply pow2_ge_0.
Qed.

Lemma map2_sq_self (a : list R) :
  Forall (fun y => y = 0) (map2 (fun o t => (o - t) ^ 2) a a).
Proof. induction a as [|x a IH]; simpl; constructor; auto. ring. Qed.

(** The generator loss of non-empty outputs is never below its adversarial
    term, and equals it when the outputs match the target. *)
Theorem get_loss_gen_ge_adversarial (outputs disc_fake target : list R) :
  outputs <> [] ->
  _get_loss_disc disc_fake true <= get_loss_gen outputs disc_fake target
  /\ get_loss_gen outputs disc_fake outputs = _get_loss_disc disc_fake true.
Proof.
  intros Hne. unfold get_loss_gen. split.
  - assert (0 <= mean (map2 (fun o t => (o - t) ^ 2) outputs target)); [|lra].
    unfold mean, Rdiv. apply Rmult_le_pos.
    + apply sum_nonneg. apply map2_sq_nonneg.
    + destruct (List.length (map2 (fun o t => (o - t) ^ 2) outputs target)) eqn:E.
      * simpl. rewrite Rinv_0. lra.
      * left. apply Rinv_0_lt_compat. apply lt_0_INR. lia.
  - rewrite mean_zero by apply map2_sq_self. ring.
Qed.

Lemma get_loss_gen_ge_adversarial_witness :
  [1; 2] <> []
  /\ _get_loss_disc [1 / 2] true <= get_loss_gen [1; 2] [1 / 2] [0; 0]
  /\ get_loss_gen [1; 2] [1 / 2] [1; 2] = _get_loss_disc [1 / 2] true.
Proof.
  split; [discriminate|].
  exact (get_loss_gen_ge_adversarial [1; 2] [1 / 2] [0; 0] ltac:(discriminate)).
Defined.

End LossExtra.

Module TrainGANExtra.
Import Py MainLoop TrainGAN TrainGANFacts.


End TrainGANExtra.
